(** * Partition transforms of [pyiceberg.transforms]

    A shallow embedding of [python/pyiceberg/transforms.py]: the transform
    classes ([IdentityTransform], [VoidTransform], [BucketTransform],
    [TruncateTransform], [UnknownTransform]), the string validator
    [Transform.validate], the value-mapping closures returned by
    [transform], and the order predicate [satisfies_order_of].

    Python exceptions are values of [exn]; a call that may raise returns a
    [result].  Python [str] is [string], [bytes] is [list byte], [int] is
    [Z]. *)

From Stdlib Require Import ZArith List String Ascii Bool Lia.
From Stdlib Require Import Strings.Byte.
From Stdlib Require Import DecimalString DecimalZ.
Import ListNotations.

Local Open Scope string_scope.
Local Open Scope Z_scope.

(** ** Exceptions and results *)

(** The exceptions this module can raise, by their Python class.
    [ParseError] is the failure of [ParseNumberFromBrackets.match]. *)
Inductive exn : Type :=
| ParseError
| ValueError
| AttributeError
| TypeError
| ZeroDivisionError
| StructError.

Inductive result (A : Type) : Type :=
| Ok (a : A)
| Raise (e : exn).

Arguments Ok {A} a.
Arguments Raise {A} e.

Definition bind {A B : Type} (r : result A) (k : A -> result B) : result B :=
  match r with
  | Ok a => k a
  | Raise e => Raise e
  end.

Notation "x <- r ;; k" := (bind r (fun x => k))
  (at level 61, r at next level, right associativity).

(** ** The consumed type system *)

(** Modelled from the spec: the classes of [pyiceberg.types] are not in the
    source file.  The eleven classes the module imports, and one constructor
    for every other Iceberg type, of which the module can only ask whether it
    is primitive. *)
Inductive IcebergType : Type :=
| BinaryType
| DateType
| DecimalType (precision scale : Z)
| FixedType (length : Z)
| IntegerType
| LongType
| StringType
| TimestampType
| TimestamptzType
| TimeType
| UUIDType
| OtherType (primitive : bool).

(** Modelled from the spec: the property [is_primitive] of
    [pyiceberg.types]; the imported classes are primitive types. *)
Definition is_primitive (source : IcebergType) : bool :=
  match source with
  | OtherType p => p
  | _ => true
  end.

(** [type(source)]: the class of a type object, without its parameters. *)
Inductive TypeClass : Type :=
| cBinary | cDate | cDecimal | cFixed | cInteger | cLong | cString
| cTimestamp | cTimestamptz | cTime | cUUID | cOther.

Definition type_of (source : IcebergType) : TypeClass :=
  match source with
  | BinaryType => cBinary
  | DateType => cDate
  | DecimalType _ _ => cDecimal
  | FixedType _ => cFixed
  | IntegerType => cInteger
  | LongType => cLong
  | StringType => cString
  | TimestampType => cTimestamp
  | TimestamptzType => cTimestamptz
  | TimeType => cTime
  | UUIDType => cUUID
  | OtherType _ => cOther
  end.

Definition TypeClass_eqb (a b : TypeClass) : bool :=
  match a, b with
  | cBinary, cBinary | cDate, cDate | cDecimal, cDecimal | cFixed, cFixed
  | cInteger, cInteger | cLong, cLong | cString, cString
  | cTimestamp, cTimestamp | cTimestamptz, cTimestamptz | cTime, cTime
  | cUUID, cUUID | cOther, cOther => true
  | _, _ => false
  end.

(** [c in {...}] on a set of classes. *)
Definition class_in (c : TypeClass) (cs : list TypeClass) : bool :=
  existsb (TypeClass_eqb c) cs.

(** Modelled from the spec: the constant [IntegerType.max] of
    [pyiceberg.types] is not in the source file; the spec gives the mask
    [0x7FFFFFFF]. *)
Definition IntegerType_max : Z := 2147483647.

(** ** Python values

    [None] and the runtime values of the source types the module dispatches
    on: [int], [str], [bytes], [decimal.Decimal] (unscaled value and
    exponent) and [uuid.UUID] (its 128-bit [int]). *)
Inductive value : Type :=
| VNone
| VInt (z : Z)
| VStr (s : string)
| VBytes (b : list byte)
| VDecimal (unscaled exponent : Z)
| VUUID (int : Z).

(** Truth value of [v] in [... if v else None]. *)
Definition truthy (v : value) : bool :=
  match v with
  | VNone => false
  | VInt z => negb (z =? 0)
  | VStr s => negb (String.eqb s "")
  | VBytes b => match b with [] => false | _ => true end
  | VDecimal u _ => negb (u =? 0)
  | VUUID _ => true
  end.

(** [str(n)] for an [int], as used by the f-strings of the constructors. *)
Definition str_of_int (n : Z) : string := NilZero.string_of_int (Z.to_int n).

(** ** Module constants *)

Definition IDENTITY : string := "identity".
Definition VOID : string := "void".
Definition BUCKET : string := "bucket".
Definition TRUNCATE : string := "truncate".

(** ** ParseNumberFromBrackets *)

(** Splits off the last character of a string. *)
Fixpoint split_last (s : string) : option (string * ascii) :=
  match s with
  | EmptyString => None
  | String c s' =>
      match split_last s' with
      | None => Some (EmptyString, c)
      | Some (body, l) => Some (String c body, l)
      end
  end.

(** Removes prefix [p] from [s] when [s] starts with it. *)
Fixpoint strip_prefix (p s : string) : option string :=
  match p, s with
  | EmptyString, _ => Some s
  | String a p', String b s' =>
      if Ascii.eqb a b then strip_prefix p' s' else None
  | String _ _, EmptyString => None
  end.

(** The enclosed substring read as an integer: an optional minus sign and
    decimal digits. *)
Definition int_of_str (s : string) : option Z :=
  option_map Z.of_int (NilZero.int_of_string s).

Record ParseNumberFromBrackets : Type := { prefix : string }.

(** Modelled from the spec: the class [ParseNumberFromBrackets] of
    [pyiceberg.utils.parsing] is not in the source file.  After the spec's
    parse rule: the string has the parser's prefix followed by an opening
    bracket, and ends with a closing bracket; the enclosed substring is read
    as an integer; the match fails when it is not an integer or not
    positive. *)
Definition match_ (p : ParseNumberFromBrackets) (str_repr : string) : result Z :=
  match strip_prefix (prefix p ++ "[") str_repr with
  | None => Raise ParseError
  | Some rest =>
      match split_last rest with
      | Some (body, "]"%char) =>
          match int_of_str body with
          | Some n => if 0 <? n then Ok n else Raise ParseError
          | None => Raise ParseError
          end
      | _ => Raise ParseError
      end
  end.

Definition BUCKET_PARSER : ParseNumberFromBrackets := {| prefix := BUCKET |}.
Definition TRUNCATE_PARSER : ParseNumberFromBrackets := {| prefix := TRUNCATE |}.

(** ** Transform objects

    One constructor per concrete class, with the private attributes the
    class reads.  [_source_type] is declared without a default and no
    [__init__] assigns it: [None] is the unassigned attribute. *)
Inductive Transform : Type :=
| IdentityTransform
| VoidTransform
| BucketTransform (_num_buckets : Z)
| TruncateTransform (_width : Z) (_source_type : option IcebergType)
| UnknownTransform (_transform : string).

(** [TruncateTransform.__init__(width)]: sets the root string and [_width]
    only. *)
Definition TruncateTransform_init (width : Z) : Transform :=
  TruncateTransform width None.

(** The field [__root__] as the constructors set it. *)
Definition root (t : Transform) : string :=
  match t with
  | IdentityTransform => "identity"
  | VoidTransform => "void"
  | BucketTransform num_buckets => "bucket[" ++ str_of_int num_buckets ++ "]"
  | TruncateTransform width _ => "truncate[" ++ str_of_int width ++ "]"
  | UnknownTransform _ => "unknown"
  end.

(** [__str__] *)
Definition str (t : Transform) : string :=
  match t with
  | IdentityTransform => "identity"
  | _ => root t
  end.

(** An argument of type [Any]: a transform or some other Python value. *)
Inductive Any : Type :=
| ATransform (t : Transform)
| AValue (v : value).

(** [Transform.validate] on a [str] argument. *)
Definition validate (v : string) : result Transform :=
  if String.eqb v IDENTITY then Ok IdentityTransform
  else if String.eqb v VOID then Ok VoidTransform
  else if String.prefix BUCKET v then
    num_buckets <- match_ BUCKET_PARSER v ;; Ok (BucketTransform num_buckets)
  else if String.prefix TRUNCATE v then
    width <- match_ BUCKET_PARSER v ;; Ok (TruncateTransform_init width)
  else Ok (UnknownTransform v).

(** [Transform.__eq__] *)
Definition __eq__ (self : Transform) (other : Any) : bool :=
  match other with
  | ATransform o => String.eqb (root self) (root o)
  | AValue _ => false
  end.

(** ** Capability checks, result types, order flags *)

Definition bucket_classes : list TypeClass :=
  [cInteger; cDate; cLong; cTime; cTimestamp; cTimestamptz; cDecimal;
   cString; cFixed; cBinary; cUUID].

Definition truncate_classes : list TypeClass :=
  [cInteger; cLong; cString; cBinary; cDecimal].

Definition can_transform (self : Transform) (source : IcebergType) : bool :=
  match self with
  | IdentityTransform => is_primitive source
  | VoidTransform => true
  | BucketTransform _ => class_in (type_of source) bucket_classes
  | TruncateTransform _ _ => class_in (type_of source) truncate_classes
  | UnknownTransform _ => false
  end.

Definition result_type (self : Transform) (source : IcebergType) : IcebergType :=
  match self with
  | BucketTransform _ => IntegerType
  | UnknownTransform _ => StringType
  | IdentityTransform | VoidTransform | TruncateTransform _ _ => source
  end.

Definition preserves_order (self : Transform) : bool :=
  match self with
  | IdentityTransform | TruncateTransform _ _ => true
  | VoidTransform | BucketTransform _ | UnknownTransform _ => false
  end.

(** The property [TruncateTransform.source_type]: reads [_source_type],
    which raises when the attribute was never assigned. *)
Definition source_type (_source_type : option IcebergType) : result IcebergType :=
  match _source_type with
  | Some ty => Ok ty
  | None => Raise AttributeError
  end.

(** [isinstance(ty, StringType)] *)
Definition isinstance_StringType (ty : IcebergType) : bool :=
  TypeClass_eqb (type_of ty) cString.

(** [TruncateTransform.satisfies_order_of]; [and] evaluates left to right
    and stops at the first false operand. *)
Definition TruncateTransform_satisfies_order_of
    (width : Z) (st : option IcebergType) (other : Any) : result bool :=
  if __eq__ (TruncateTransform width st) other then Ok true
  else
    self_ty <- source_type st ;;
    if isinstance_StringType self_ty then
      match other with
      | ATransform (TruncateTransform other_width other_st) =>
          other_ty <- source_type other_st ;;
          if isinstance_StringType other_ty then Ok (other_width <=? width)
          else Ok false
      | _ => Ok false
      end
    else Ok false.

Definition satisfies_order_of (self : Transform) (other : Any) : result bool :=
  match self with
  | IdentityTransform =>
      match other with
      | ATransform o => Ok (preserves_order o)
      | AValue _ => Raise AttributeError
      end
  | TruncateTransform width st => TruncateTransform_satisfies_order_of width st other
  | VoidTransform | BucketTransform _ | UnknownTransform _ => Ok (__eq__ self other)
  end.

(** ** Byte packing *)

Definition byte_of_Z (z : Z) : byte :=
  match Byte.of_N (Z.to_N (z mod 256)) with
  | Some b => b
  | None => x00
  end.

(** The [n] low bytes of [z], least significant first (two's complement for
    a negative [z]). *)
Fixpoint le_bytes (n : nat) (z : Z) : list byte :=
  match n with
  | O => []
  | S n' => byte_of_Z z :: le_bytes n' (z / 256)
  end.

Definition be_bytes (n : nat) (z : Z) : list byte := rev (le_bytes n z).

(** [struct.pack("<q", v)] *)
Definition struct_pack_q (v : value) : result (list byte) :=
  match v with
  | VInt z =>
      if (- 2 ^ 63 <=? z) && (z <? 2 ^ 63) then Ok (le_bytes 8 z)
      else Raise StructError
  | _ => Raise StructError
  end.

(** [struct.pack(">QQ", (v.int >> 64) & 0xFFFFFFFFFFFFFFFF, v.int & 0xFFFFFFFFFFFFFFFF)] *)
Definition struct_pack_QQ (v : value) : result (list byte) :=
  match v with
  | VUUID i =>
      Ok (be_bytes 8 (Z.land (Z.shiftr i 64) 18446744073709551615)
          ++ be_bytes 8 (Z.land i 18446744073709551615))%list
  | _ => Raise AttributeError
  end.

(** [v[0:stop]] on a sequence of length [len]: the number of elements kept. *)
Definition slice_stop (stop len : Z) : nat :=
  Z.to_nat (if stop <? 0 then Z.max 0 (stop + len) else Z.min stop len).

(** [a % b] on [int]. *)
Definition py_mod (a b : Z) : result Z :=
  if b =? 0 then Raise ZeroDivisionError else Ok (a mod b).

(** ** Value-mapping functions *)

Section Transforms.

(** [mmh3.hash] of a byte string: the signed 32-bit Murmur3 hash, seed 0. *)
Variable mmh3_hash : list byte -> Z.
(** [str.encode("utf-8")], which [mmh3.hash] applies to a [str] key. *)
Variable utf8_encode : string -> list byte.
(** [decimal_to_bytes] and [truncate_decimal] of [pyiceberg.utils.decimal]. *)
Variable decimal_to_bytes : value -> result (list byte).
Variable truncate_decimal : value -> Z -> result value.
(** [v - v % w] of [decimal.Decimal] for a decimal [v] and an [int] [w]. *)
Variable decimal_sub_mod : Z -> Z -> Z -> result value.

(** [mmh3.hash(v)] on a Python value. *)
Definition mmh3_hash_value (v : value) : result Z :=
  match v with
  | VBytes b => Ok (mmh3_hash b)
  | VStr s => Ok (mmh3_hash (utf8_encode s))
  | _ => Raise TypeError
  end.

(** The [hash_func] that [BucketTransform.transform] selects. *)
Definition hash_func (source : IcebergType) : result (value -> result Z) :=
  let source_type := type_of source in
  if class_in source_type [cInteger; cLong; cDate; cTime; cTimestamp; cTimestamptz] then
    Ok (fun v => b <- struct_pack_q v ;; Ok (mmh3_hash b))
  else if TypeClass_eqb source_type cDecimal then
    Ok (fun v => b <- decimal_to_bytes v ;; Ok (mmh3_hash b))
  else if class_in source_type [cString; cFixed; cBinary] then
    Ok (fun v => mmh3_hash_value v)
  else if TypeClass_eqb source_type cUUID then
    Ok (fun v => b <- struct_pack_QQ v ;; Ok (mmh3_hash b))
  else Raise ValueError.

(** [BucketTransform.transform(source, bucket)] *)
Definition BucketTransform_transform
    (num_buckets : Z) (source : IcebergType) (bucket : bool)
  : result (value -> result value) :=
  hf <- hash_func source ;;
  if bucket then
    Ok (fun v =>
          if truthy v then
            h <- hf v ;; r <- py_mod (Z.land h IntegerType_max) num_buckets ;; Ok (VInt r)
          else Ok VNone)
  else Ok (fun v => h <- hf v ;; Ok (VInt h)).

(** The [truncate_func] that [TruncateTransform.transform] selects. *)
Definition truncate_func (width : Z) (source : IcebergType)
  : result (value -> result value) :=
  let source_type := type_of source in
  if class_in source_type [cInteger; cLong] then
    Ok (fun v =>
          match v with
          | VInt z => m <- py_mod z width ;; Ok (VInt (z - m))
          | VDecimal u e => decimal_sub_mod u e width
          | _ => Raise TypeError
          end)
  else if class_in source_type [cString; cBinary] then
    Ok (fun v =>
          match v with
          | VStr s =>
              let len := Z.of_nat (String.length s) in
              Ok (VStr (substring 0 (slice_stop (Z.min width len) len) s))
          | VBytes b =>
              let len := Z.of_nat (List.length b) in
              Ok (VBytes (firstn (slice_stop (Z.min width len) len) b))
          | _ => Raise TypeError
          end)
  else if TypeClass_eqb source_type cDecimal then
    Ok (fun v => truncate_decimal v width)
  else Raise ValueError.

(** [TruncateTransform.transform(source)] *)
Definition TruncateTransform_transform (width : Z) (source : IcebergType)
  : result (value -> result value) :=
  tf <- truncate_func width source ;;
  Ok (fun v => if truthy v then tf v else Ok VNone).

(** [transform(source)] of each class; [BucketTransform] with its default
    [bucket=True]. *)
Definition transform (self : Transform) (source : IcebergType)
  : result (value -> result value) :=
  match self with
  | IdentityTransform => Ok (fun v => Ok v)
  | VoidTransform => Ok (fun _ => Ok VNone)
  | BucketTransform num_buckets => BucketTransform_transform num_buckets source true
  | TruncateTransform width _ => TruncateTransform_transform width source
  | UnknownTransform _ => Raise AttributeError
  end.

End Transforms.

(** ** Predicates used in the statements *)

(** Whether the transform carries a positive parameter (vacuous for the
    classes without one). *)
Definition positive_parameter (t : Transform) : bool :=
  match t with
  | BucketTransform num_buckets => 0 <? num_buckets
  | TruncateTransform width _ => 0 <? width
  | _ => true
  end.

(** The shape ["kind[...]"]: the string starts with [kind] and an opening
    bracket and ends with a closing bracket. *)
Definition has_bracketed_form (kind s : string) : bool :=
  match strip_prefix (kind ++ "[") s with
  | Some rest =>
      match split_last rest with
      | Some (_, "]"%char) => true
      | _ => false
      end
  | None => false
  end.

(** The two classes whose mapping function depends on the source type. *)
Definition is_bucket_or_truncate (t : Transform) : bool :=
  match t with
  | BucketTransform _ | TruncateTransform _ _ => true
  | _ => false
  end.

(** [type(a) is type(b)] on transforms. *)
Definition same_class (a b : Transform) : bool :=
  match a, b with
  | IdentityTransform, IdentityTransform
  | VoidTransform, VoidTransform
  | BucketTransform _, BucketTransform _
  | TruncateTransform _ _, TruncateTransform _ _
  | UnknownTransform _, UnknownTransform _ => true
  | _, _ => false
  end.

(** ** Human-readable strings *)

Definition byte_to_Z (b : byte) : Z := Z.of_N (Byte.to_N b).

Definition b64_alphabet : string :=
  "ABCDEFGHIJKLMNOPQRSTUVWXYZabcdefghijklmnopqrstuvwxyz0123456789+/".

Definition b64_char (i : Z) : ascii :=
  match String.get (Z.to_nat i) b64_alphabet with
  | Some c => c
  | None => "="%char
  end.

(** [base64.b64encode]: three bytes give four six-bit digits; a last group
    of one or two bytes is padded with ["="]. *)
Fixpoint b64encode (buffer : list byte) : string :=
  match buffer with
  | [] => ""
  | [x] =>
      let a := byte_to_Z x in
      String (b64_char (a / 4)) (String (b64_char (a mod 4 * 16)) "==")
  | [x; y] =>
      let a := byte_to_Z x in
      let b := byte_to_Z y in
      String (b64_char (a / 4))
        (String (b64_char (a mod 4 * 16 + b / 16))
           (String (b64_char (b mod 16 * 4)) "="))
  | x :: y :: z :: rest =>
      let a := byte_to_Z x in
      let b := byte_to_Z y in
      let c := byte_to_Z z in
      String (b64_char (a / 4))
        (String (b64_char (a mod 4 * 16 + b / 16))
           (String (b64_char (b mod 16 * 4 + c / 64))
              (String (b64_char (c mod 64)) (b64encode rest))))
  end.

(** [_base64encode]: the ISO-8859-1 decoding keeps each byte as the
    character of the same code. *)
Definition _base64encode (buffer : list byte) : string := b64encode buffer.

Section HumanStrings.

(** [str(v)] for [bytes], [Decimal] and [UUID] values. *)
Variable py_str_other : value -> string.
(** The formatting helpers of [pyiceberg.utils.datetime]. *)
Variable to_human_day : Z -> string.
Variable to_human_time : Z -> string.
Variable to_human_timestamp : Z -> string.
Variable to_human_timestamptz : Z -> string.

(** [str(v)] *)
Definition py_str (v : value) : string :=
  match v with
  | VNone => "None"
  | VInt z => str_of_int z
  | VStr s => s
  | _ => py_str_other v
  end.

(** [_int_to_human_string]: dispatch on the class of the type. *)
Definition _int_to_human_string (_type : IcebergType) (z : Z) : string :=
  match type_of _type with
  | cDate => to_human_day z
  | cTime => to_human_time z
  | cTimestamp => to_human_timestamp z
  | cTimestamptz => to_human_timestamptz z
  | _ => str_of_int z
  end.

(** [_human_string]: dispatch on the class of the value. *)
Definition _human_string (v : value) (_type : IcebergType) : string :=
  match v with
  | VBytes b => _base64encode b
  | VInt z => _int_to_human_string _type z
  | _ => py_str v
  end.

(** [to_human_string] of each class; bucket and unknown transforms inherit
    the method of [Transform]. *)
Definition to_human_string (self : Transform) (source : IcebergType) (v : value)
  : string :=
  match self with
  | IdentityTransform =>
      match v with
      | VNone => "null"
      | _ => _human_string v source
      end
  | TruncateTransform _ _ =>
      match v with
      | VNone => "null"
      | VBytes b => _base64encode b
      | _ => py_str v
      end
  | VoidTransform => "null"
  | BucketTransform _ | UnknownTransform _ =>
      match v with
      | VNone => "null"
      | _ => py_str v
      end
  end.

End HumanStrings.

(** ** Decoders used to state round trips *)

(** The unsigned integer that a little-endian byte string stands for. *)
Fixpoint le_decode (l : list byte) : Z :=
  match l with
  | [] => 0
  | b :: l' => byte_to_Z b + 256 * le_decode l'
  end.

Definition be_decode (l : list byte) : Z := le_decode (rev l).

(** The signed reading of an unsigned 64-bit integer. *)
Definition signed64 (u : Z) : Z := if u <? 2 ^ 63 then u else u - 2 ^ 64.

Fixpoint index_of (c : ascii) (s : string) (i : Z) : option Z :=
  match s with
  | EmptyString => None
  | String d s' => if Ascii.eqb c d then Some i else index_of c s' (i + 1)
  end.

Definition b64_index (c : ascii) : option Z := index_of c b64_alphabet 0.

(** The inverse of [b64encode]. *)
Fixpoint b64decode (s : string) : option (list byte) :=
  match s with
  | EmptyString => Some []
  | String c0 (String c1 (String c2 (String c3 rest))) =>
      match b64_index c0, b64_index c1 with
      | Some i0, Some i1 =>
          let x := byte_of_Z (i0 * 4 + i1 / 16) in
          if Ascii.eqb c2 "=" then
            if Ascii.eqb c3 "=" then
              match rest with EmptyString => Some [x] | _ => None end
            else None
          else
            match b64_index c2 with
            | Some i2 =>
                let y := byte_of_Z (i1 mod 16 * 16 + i2 / 4) in
                if Ascii.eqb c3 "=" then
                  match rest with EmptyString => Some [x; y] | _ => None end
                else
                  match b64_index c3, b64decode rest with
                  | Some i3, Some l => Some (x :: y :: byte_of_Z (i2 mod 4 * 64 + i3) :: l)
                  | _, _ => None
                  end
            | None => None
            end
      | _, _ => None
      end
  | _ => None
  end.

(** * Properties *)

(** ** Strings and decimal numerals *)

Lemma split_last_snoc (body : string) (c : ascii) :
  split_last (body ++ String c EmptyString) = Some (body, c).
Proof.
  induction body as [|a body IH]; simpl.
  - reflexivity.
  - rewrite IH. reflexivity.
Qed.

Lemma strip_prefix_app (p s : string) : strip_prefix p (p ++ s) = Some s.
Proof.
  induction p as [|a p IH]; simpl.
  - reflexivity.
  - rewrite Ascii.eqb_refl. exact IH.
Qed.

Lemma prefix_app (p s : string) : String.prefix p (p ++ s) = true.
Proof.
  induction p as [|a p IH]; simpl.
  - destruct s; reflexivity.
  - destruct (ascii_dec a a) as [_|ne]; [exact IH | now elim ne].
Qed.

(** Reading back the decimal numeral of an integer gives the integer. *)
Lemma int_of_str_of_int (n : Z) : int_of_str (str_of_int n) = Some n.
Proof.
  unfold int_of_str, str_of_int.
  rewrite NilZero.isi.
  - simpl. now rewrite DecimalZ.of_to.
  - destruct n as [|p|p]; simpl; try discriminate.
    intros [= H]. generalize (DecimalPos.Unsigned.to_uint_nonnil p). congruence.
  - destruct n as [|p|p]; simpl; try discriminate.
    intros [= H]. generalize (DecimalPos.Unsigned.to_uint_nonnil p). congruence.
Qed.

(** The parser on a well-formed specifier of its own prefix. *)
Lemma match_own_prefix (p : ParseNumberFromBrackets) (n : Z) :
  0 < n ->
  match_ p (prefix p ++ "[" ++ str_of_int n ++ "]") = Ok n.
Proof.
  intros Hn. unfold match_.
  replace (prefix p ++ "[" ++ str_of_int n ++ "]")
    with ((prefix p ++ "[") ++ (str_of_int n ++ "]")).
  - rewrite strip_prefix_app, split_last_snoc, int_of_str_of_int.
    apply Z.ltb_lt in Hn. now rewrite Hn.
  - induction (prefix p) as [|a q IH]; simpl; [reflexivity | now rewrite IH].
Qed.

(** The parser returns positive numbers only. *)
Lemma match_positive (p : ParseNumberFromBrackets) (s : string) (n : Z) :
  match_ p s = Ok n -> 0 < n.
Proof.
  unfold match_.
  destruct (strip_prefix _ s) as [rest|]; [|discriminate].
  destruct (split_last rest) as [[body l]|]; [|discriminate].
  destruct l as [[] [] [] [] [] [] [] []]; try discriminate.
  destruct (int_of_str body) as [m|]; [|discriminate].
  destruct (0 <? m) eqn:Hm; [|discriminate].
  intros [= <-]. now apply Z.ltb_lt.
Qed.

(** The bucket parser fails on every string that starts with ["truncate"]. *)
Lemma bucket_parser_on_truncate (rest : string) :
  match_ BUCKET_PARSER ("truncate" ++ rest) = Raise ParseError.
Proof. reflexivity. Qed.

(** ** The validator *)

Lemma validate_identity : validate "identity" = Ok IdentityTransform /\ str IdentityTransform = "identity".
Proof. split; reflexivity. Qed.

Lemma validate_void : validate "void" = Ok VoidTransform /\ str VoidTransform = "void".
Proof. split; reflexivity. Qed.

(** A bucket specifier with a positive count parses to that bucket transform,
    whose string is the specifier again. *)
Lemma validate_bucket_roundtrip (N : Z) :
  0 < N ->
  validate ("bucket[" ++ str_of_int N ++ "]") = Ok (BucketTransform N) /\
  str (BucketTransform N) = "bucket[" ++ str_of_int N ++ "]".
Proof.
  intros HN. split; [|reflexivity].
  unfold validate.
  change (String.eqb ("bucket[" ++ str_of_int N ++ "]") IDENTITY) with false.
  change (String.eqb ("bucket[" ++ str_of_int N ++ "]") VOID) with false.
  change ("bucket[" ++ str_of_int N ++ "]") with (BUCKET ++ ("[" ++ str_of_int N ++ "]")).
  rewrite prefix_app.
  change (BUCKET ++ "[" ++ str_of_int N ++ "]")
    with (prefix BUCKET_PARSER ++ "[" ++ str_of_int N ++ "]").
  now rewrite match_own_prefix.
Qed.

Example validate_bucket_16 :
  validate "bucket[16]" = Ok (BucketTransform 16) /\ str (BucketTransform 16) = "bucket[16]".
Proof. split; reflexivity. Qed.

(** Every string that starts with ["truncate"] is handed to the bucket
    parser, which rejects it. *)
Lemma validate_truncate_prefix (rest : string) :
  validate ("truncate" ++ rest) = Raise ParseError.
Proof. destruct rest; reflexivity. Qed.

(** C1: parsing ["truncate[" + W + "]"] should give the truncate transform of
    width [W].  The validator passes the string to [BUCKET_PARSER] instead of
    [TRUNCATE_PARSER], so for every [W] the call raises. *)
Theorem validate_truncate_specifier_raises (W : Z) :
  validate ("truncate[" ++ str_of_int W ++ "]") = Raise ParseError.
Proof. exact (validate_truncate_prefix ("[" ++ str_of_int W ++ "]")). Qed.

(** C2: parsing a specifier and printing the transform should return the
    specifier.  It does for ["identity"], ["void"] and ["bucket[N]"]
    ([validate_identity], [validate_void], [validate_bucket_roundtrip]); on
    ["truncate[5]"] parsing raises, so there is no transform to print. *)
Theorem roundtrip_truncate_5_raises :
  (t <- validate "truncate[5]" ;; Ok (str t)) = Raise ParseError.
Proof. reflexivity. Qed.

(** Whatever the validator returns has a positive parameter. *)
Lemma validate_positive_parameter (s : string) (t : Transform) :
  validate s = Ok t -> positive_parameter t = true.
Proof.
  unfold validate.
  destruct (String.eqb s IDENTITY); [now intros [= <-]|].
  destruct (String.eqb s VOID); [now intros [= <-]|].
  destruct (String.prefix BUCKET s).
  - destruct (match_ BUCKET_PARSER s) as [n|e] eqn:Hm; simpl; [|discriminate].
    intros [= <-]. simpl. apply Z.ltb_lt. eapply match_positive; eassumption.
  - destruct (String.prefix TRUNCATE s).
    + destruct (match_ BUCKET_PARSER s) as [n|e] eqn:Hm; simpl; [|discriminate].
      intros [= <-]. simpl. apply Z.ltb_lt. eapply match_positive; eassumption.
    + now intros [= <-].
Qed.

(** The parser of any prefix rejects a bracketed parameter that is not a
    positive integer. *)
Lemma match_bad_parameter (p : ParseNumberFromBrackets) (body : string) :
  (forall n, int_of_str body = Some n -> n <= 0) ->
  match_ p (prefix p ++ "[" ++ body ++ "]") = Raise ParseError.
Proof.
  intros Hbad. unfold match_.
  replace (prefix p ++ "[" ++ body ++ "]") with ((prefix p ++ "[") ++ (body ++ "]")).
  - rewrite strip_prefix_app, split_last_snoc.
    destruct (int_of_str body) as [n|]; [|reflexivity].
    specialize (Hbad n eq_refl).
    destruct (0 <? n) eqn:Hn; [|reflexivity].
    apply Z.ltb_lt in Hn. lia.
  - induction (prefix p) as [|a q IH]; simpl; [reflexivity | now rewrite IH].
Qed.

(** C3: a bucket or truncate specifier whose bracketed parameter is not an
    integer, or is an integer that is not strictly positive, fails to parse
    with [ParseError]; and no specifier of that shape parses to a transform
    with a non-positive parameter. *)
Theorem validate_bad_parameter_raises (kind body : string) :
  kind = BUCKET \/ kind = TRUNCATE ->
  ((forall n, int_of_str body = Some n -> n <= 0) ->
   validate (kind ++ "[" ++ body ++ "]") = Raise ParseError) /\
  (forall t, validate (kind ++ "[" ++ body ++ "]") = Ok t ->
             positive_parameter t = true).
Proof.
  intros Hkind. split; [|intros t; apply validate_positive_parameter].
  intros Hbad. destruct Hkind as [-> | ->].
  - unfold validate.
    change (String.eqb (BUCKET ++ "[" ++ body ++ "]") IDENTITY) with false.
    change (String.eqb (BUCKET ++ "[" ++ body ++ "]") VOID) with false.
    rewrite prefix_app.
    change (BUCKET ++ "[" ++ body ++ "]") with (prefix BUCKET_PARSER ++ "[" ++ body ++ "]").
    now rewrite match_bad_parameter.
  - apply (validate_truncate_prefix ("[" ++ body ++ "]")).
Qed.

Lemma validate_bad_parameter_raises_witness :
  validate "bucket[0]" = Raise ParseError /\
  validate "bucket[abc]" = Raise ParseError /\
  validate "bucket[-3]" = Raise ParseError.
Proof.
  split; [|split].
  - apply (validate_bad_parameter_raises "bucket" "0"); [left; reflexivity|].
    intros n H. vm_compute in H. injection H as <-. lia.
  - apply (validate_bad_parameter_raises "bucket" "abc"); [left; reflexivity|].
    intros n H. vm_compute in H. discriminate H.
  - apply (validate_bad_parameter_raises "bucket" "-3"); [left; reflexivity|].
    intros n H. vm_compute in H. injection H as <-. lia.
Defined.

(** C4 as stated fails: ["bucketed"] is neither ["identity"] nor ["void"] and
    has no bracketed form, yet the validator raises on it. *)
Lemma validate_bucketed_raises :
  "bucketed" <> IDENTITY /\ "bucketed" <> VOID /\
  has_bracketed_form BUCKET "bucketed" = false /\
  has_bracketed_form TRUNCATE "bucketed" = false /\
  validate "bucketed" = Raise ParseError.
Proof.
  split; [discriminate|]. split; [discriminate|].
  split; [reflexivity|]. split; reflexivity.
Qed.

(** C4 (amended): a string that is neither ["identity"] nor ["void"] and
    starts with neither ["bucket"] nor ["truncate"] parses, without error, to
    the unknown transform that keeps the string. *)
Theorem validate_unknown (s : string) :
  s <> IDENTITY -> s <> VOID ->
  String.prefix BUCKET s = false -> String.prefix TRUNCATE s = false ->
  validate s = Ok (UnknownTransform s).
Proof.
  intros Hi Hv Hb Ht. unfold validate.
  apply String.eqb_neq in Hi. apply String.eqb_neq in Hv.
  now rewrite Hi, Hv, Hb, Ht.
Qed.

Lemma validate_unknown_witness :
  validate "frobnicate" = Ok (UnknownTransform "frobnicate").
Proof.
  apply validate_unknown; [discriminate | discriminate | reflexivity | reflexivity].
Defined.

(** ** Equality and the order predicate *)

Lemma str_root (t : Transform) : str t = root t.
Proof. destruct t; reflexivity. Qed.

(** C10: two transforms are equal exactly when their strings are equal; the
    string of every unknown transform is ["unknown"], so any two unknown
    transforms are equal whatever raw specifiers they keep. *)
Theorem eq_iff_same_string :
  (forall t1 t2 : Transform, __eq__ t1 (ATransform t2) = true <-> str t1 = str t2) /\
  (forall raw : string, str (UnknownTransform raw) = "unknown") /\
  (forall raw1 raw2 : string,
      __eq__ (UnknownTransform raw1) (ATransform (UnknownTransform raw2)) = true).
Proof.
  split; [|split].
  - intros t1 t2. rewrite !str_root. simpl. apply String.eqb_eq.
  - reflexivity.
  - reflexivity.
Qed.

(** A truncate transform satisfies the order of whatever it is equal to. *)
Lemma truncate_satisfies_order_of_equal (w : Z) (st : option IcebergType) (other : Any) :
  __eq__ (TruncateTransform w st) other = true ->
  satisfies_order_of (TruncateTransform w st) other = Ok true.
Proof.
  intros H. simpl. unfold TruncateTransform_satisfies_order_of. now rewrite H.
Qed.

(** With the source types assigned ([self], and [other] when it is a
    truncate transform), the predicate returns: true on equal transforms,
    and otherwise true exactly when both are truncate transforms over strings
    and the width of [self] is at least the other width. *)
Lemma truncate_satisfies_order_of_bound (w : Z) (ty : IcebergType) (other : Any) :
  match other with ATransform (TruncateTransform _ None) => False | _ => True end ->
  satisfies_order_of (TruncateTransform w (Some ty)) other
  = Ok (__eq__ (TruncateTransform w (Some ty)) other
        || isinstance_StringType ty
           && match other with
              | ATransform (TruncateTransform w' (Some ty')) =>
                  isinstance_StringType ty' && (w' <=? w)
              | _ => false
              end).
Proof.
  intros Hb. simpl. unfold TruncateTransform_satisfies_order_of.
  destruct (__eq__ (TruncateTransform w (Some ty)) other); [reflexivity|]. simpl.
  destruct (isinstance_StringType ty); [|reflexivity]. simpl.
  destruct other as [[| |n|w' [ty'|]|raw]|v]; try reflexivity; [|now elim Hb].
  simpl. destruct (isinstance_StringType ty'); reflexivity.
Qed.

(** With the source type of [self] never assigned, the predicate raises on
    every argument that is not equal to [self]. *)
Lemma truncate_satisfies_order_of_unbound (w : Z) (other : Any) :
  __eq__ (TruncateTransform_init w) other = false ->
  satisfies_order_of (TruncateTransform_init w) other = Raise AttributeError.
Proof.
  intros H. unfold TruncateTransform_init in *. simpl.
  unfold TruncateTransform_satisfies_order_of. now rewrite H.
Qed.

(** C7: [Truncate(5).satisfies_order_of(Truncate(2))] should be true and the
    predicate should never fail.  On the two transforms as their constructor
    builds them the predicate reads the unassigned [_source_type] and raises. *)
Theorem truncate_5_satisfies_order_of_truncate_2_raises :
  satisfies_order_of (TruncateTransform_init 5) (ATransform (TruncateTransform_init 2))
  = Raise AttributeError.
Proof. reflexivity. Qed.

(** ** Value mapping *)

Lemma substring_prefix (n : nat) (s : string) :
  (n <= String.length s)%nat ->
  exists rest, s = substring 0 n s ++ rest /\ String.length (substring 0 n s) = n.
Proof.
  revert s. induction n as [|n IH]; intros s Hn.
  - exists s. destruct s; split; reflexivity.
  - destruct s as [|a s]; simpl in Hn; [lia|].
    destruct (IH s) as [rest [Hs Hl]]; [lia|].
    exists rest. simpl. split; [now rewrite <- Hs | now rewrite Hl].
Qed.

Lemma slice_stop_min (width len : Z) :
  0 < width -> 0 <= len ->
  Z.of_nat (slice_stop (Z.min width len) len) = Z.min width len.
Proof.
  intros Hw Hl. unfold slice_stop.
  destruct (Z.min width len <? 0) eqn:Hneg.
  - apply Z.ltb_lt in Hneg. lia.
  - rewrite Z2Nat.id; lia.
Qed.

Lemma truncate_int_largest_multiple (W z : Z) :
  0 < W ->
  (W | z - z mod W) /\ z - z mod W <= z < z - z mod W + W.
Proof.
  intros HW. split.
  - exists (z / W). pose proof (Z.div_mod z W). lia.
  - pose proof (Z.mod_pos_bound z W HW). lia.
Qed.

Section TransformProperties.

Variable mmh3_hash : list byte -> Z.
Variable utf8_encode : string -> list byte.
Variable decimal_to_bytes : value -> result (list byte).
Variable truncate_decimal : value -> Z -> result value.
Variable decimal_sub_mod : Z -> Z -> Z -> result value.

Local Abbreviation transform' :=
  (transform mmh3_hash utf8_encode decimal_to_bytes truncate_decimal decimal_sub_mod).

(** The bucket and truncate closures test their argument before anything
    else. *)
Lemma transform_guard (self : Transform) (source : IcebergType)
      (f : value -> result value) (v : value) :
  is_bucket_or_truncate self = true ->
  transform' self source = Ok f ->
  truthy v = false -> f v = Ok VNone.
Proof.
  intros Hself Hf Hv.
  destruct self as [| |n|w st|raw]; try discriminate Hself; simpl in Hf.
  - unfold BucketTransform_transform in Hf.
    destruct (hash_func _ _ _ source) as [hf|e]; simpl in Hf; [|discriminate].
    injection Hf as <-. now rewrite Hv.
  - unfold TruncateTransform_transform in Hf.
    destruct (truncate_func _ _ w source) as [tf|e]; simpl in Hf; [|discriminate].
    injection Hf as <-. now rewrite Hv.
Qed.

(** On a source type that passes [can_transform], [transform] returns. *)
Lemma transform_returns (self : Transform) (source : IcebergType) :
  is_bucket_or_truncate self = true ->
  can_transform self source = true ->
  exists f, transform' self source = Ok f.
Proof.
  intros Hself Hcan.
  destruct self as [| |n|w st|raw]; try discriminate Hself;
    destruct source; try discriminate Hcan; eexists; reflexivity.
Qed.

(** C5: the mapping functions of bucket and truncate send [None] to [None],
    and also every other falsy input: the integer [0], the empty string,
    the empty byte string. *)
Theorem falsy_input_maps_to_None (self : Transform) (source : IcebergType) :
  is_bucket_or_truncate self = true ->
  can_transform self source = true ->
  exists f, transform' self source = Ok f /\
    f VNone = Ok VNone /\
    f (VInt 0) = Ok VNone /\ f (VStr "") = Ok VNone /\ f (VBytes []) = Ok VNone /\
    (forall v, truthy v = false -> f v = Ok VNone).
Proof.
  intros Hself Hcan.
  destruct (transform_returns self source Hself Hcan) as [f Hf].
  exists f. split; [exact Hf|].
  pose proof (transform_guard self source f) as G.
  repeat split; try (apply G; auto; fail).
  intros v Hv. now apply G.
Qed.

(** C6: with a positive width, on an integer or long source type the
    truncate mapping returns, for every input where its result is not
    [None], [v - v mod W], the largest multiple of [W] that does not exceed
    [v]; on a string or binary source type it returns the first
    [min(W, len(v))] elements of [v].  Every non-zero integer and every
    non-empty sequence gets such a result. *)
Theorem truncate_transform_values (W : Z) (st : option IcebergType)
        (source : IcebergType) :
  0 < W ->
  (class_in (type_of source) [cInteger; cLong] = true ->
   exists f, transform' (TruncateTransform W st) source = Ok f /\
     (forall z, z <> 0 -> f (VInt z) = Ok (VInt (z - z mod W))) /\
     (forall z r, f (VInt z) = Ok r -> r <> VNone ->
        r = VInt (z - z mod W) /\
        (W | z - z mod W) /\ z - z mod W <= z < z - z mod W + W)) /\
  (class_in (type_of source) [cString; cBinary] = true ->
   exists f, transform' (TruncateTransform W st) source = Ok f /\
     (forall s, s <> "" -> exists p, f (VStr s) = Ok (VStr p)) /\
     (forall b, b <> [] -> exists p, f (VBytes b) = Ok (VBytes p)) /\
     (forall s r, f (VStr s) = Ok r -> r <> VNone ->
        exists p rest, r = VStr p /\ s = p ++ rest /\
          Z.of_nat (String.length p) = Z.min W (Z.of_nat (String.length s))) /\
     (forall b r, f (VBytes b) = Ok r -> r <> VNone ->
        exists p rest, r = VBytes p /\ b = (p ++ rest)%list /\
          Z.of_nat (List.length p) = Z.min W (Z.of_nat (List.length b)))).
Proof.
  intros HW.
  assert (Hmod : forall z, py_mod z W = Ok (z mod W)).
  { intros z. unfold py_mod. destruct (W =? 0) eqn:E; [|reflexivity].
    apply Z.eqb_eq in E. lia. }
  split; intros Hsrc.
  - assert (Hf : transform' (TruncateTransform W st) source
                 = Ok (fun v => if truthy v
                                then match v with
                                     | VInt z => m <- py_mod z W ;; Ok (VInt (z - m))
                                     | VDecimal u e => decimal_sub_mod u e W
                                     | _ => Raise TypeError
                                     end
                                else Ok VNone)).
    { destruct source; try discriminate Hsrc; reflexivity. }
    eexists. split; [exact Hf|]. split.
    + intros z Hz. simpl. apply Z.eqb_neq in Hz. rewrite Hz. simpl.
      now rewrite Hmod.
    + intros z r Hr Hnn. simpl in Hr.
      destruct (z =? 0); simpl in Hr; [injection Hr as <-; now elim Hnn|].
      rewrite Hmod in Hr. simpl in Hr. injection Hr as <-.
      split; [reflexivity | now apply truncate_int_largest_multiple].
  - assert (Hf : transform' (TruncateTransform W st) source
                 = Ok (fun v => if truthy v
                                then match v with
                                     | VStr s =>
                                         let len := Z.of_nat (String.length s) in
                                         Ok (VStr (substring 0 (slice_stop (Z.min W len) len) s))
                                     | VBytes b =>
                                         let len := Z.of_nat (List.length b) in
                                         Ok (VBytes (firstn (slice_stop (Z.min W len) len) b))
                                     | _ => Raise TypeError
                                     end
                                else Ok VNone)).
    { destruct source; try discriminate Hsrc; reflexivity. }
    eexists. split; [exact Hf|]. split; [|split; [|split]].
    + intros s Hs. apply String.eqb_neq in Hs. simpl. rewrite Hs. simpl.
      eexists. reflexivity.
    + intros b Hb. destruct b as [|x b]; [now elim Hb|]. simpl.
      eexists. reflexivity.
    + intros s r Hr Hnn. simpl in Hr.
      destruct (String.eqb s ""); simpl in Hr; [injection Hr as <-; now elim Hnn|].
      injection Hr as <-.
      set (len := Z.of_nat (String.length s)).
      pose proof (slice_stop_min W len HW (Nat2Z.is_nonneg _)) as Hk.
      destruct (substring_prefix (slice_stop (Z.min W len) len) s) as [rest [Hs Hl]];
        [unfold len in *; lia|].
      exists (substring 0 (slice_stop (Z.min W len) len) s), rest.
      split; [reflexivity|]. split; [exact Hs|]. now rewrite Hl.
    + intros b r Hr Hnn.
      destruct b as [|x b]; [simpl in Hr; injection Hr as <-; now elim Hnn|].
      cbn [truthy] in Hr. cbv zeta in Hr. injection Hr as <-.
      set (len := Z.of_nat (List.length (x :: b))).
      pose proof (slice_stop_min W len HW (Nat2Z.is_nonneg _)) as Hk.
      exists (firstn (slice_stop (Z.min W len) len) (x :: b)),
             (skipn (slice_stop (Z.min W len) len) (x :: b)).
      split; [reflexivity|]. split; [now rewrite firstn_skipn|].
      rewrite length_firstn. unfold len in *. lia.
Qed.

(** C8: [transform] of an unknown transform raises for every source type
    and its [can_transform] is false for every source type; [transform] of
    a bucket or truncate transform raises on every source type that its
    [can_transform] rejects.  (The source raises [AttributeError] in the
    first case and [ValueError] in the second.) *)
Theorem unsupported_transform_raises (self : Transform) (source : IcebergType)
        (raw : string) :
  (transform' (UnknownTransform raw) source = Raise AttributeError /\
   can_transform (UnknownTransform raw) source = false) /\
  (is_bucket_or_truncate self = true ->
   can_transform self source = false ->
   transform' self source = Raise ValueError).
Proof.
  split; [split; reflexivity|].
  intros Hself Hcan.
  destruct self as [| |n|w st|r]; try discriminate Hself;
    destruct source; try discriminate Hcan; reflexivity.
Qed.

(** C9: the mapping function of the identity transform returns its input,
    [None] included, for every source type, and the result type is the
    source type. *)
Theorem identity_transform_is_identity (source : IcebergType) :
  exists f, transform' IdentityTransform source = Ok f /\
    (forall v, f v = Ok v) /\ f VNone = Ok VNone /\
    result_type IdentityTransform source = source.
Proof.
  eexists. split; [reflexivity|]. repeat split.
Qed.

End TransformProperties.

(** ** The theorems at concrete inputs

    The external functions are instantiated with constant functions: none of
    the statements below depends on what they compute. *)

Lemma falsy_input_maps_to_None_witness :
  exists f,
    transform (fun _ => 0) (fun _ => []) (fun _ => Raise TypeError)
              (fun _ _ => Raise TypeError) (fun _ _ _ => Raise TypeError)
              (BucketTransform 16) IntegerType = Ok f /\
    f VNone = Ok VNone /\ f (VInt 0) = Ok VNone.
Proof.
  destruct (falsy_input_maps_to_None
              (fun _ => 0) (fun _ => []) (fun _ => Raise TypeError)
              (fun _ _ => Raise TypeError) (fun _ _ _ => Raise TypeError)
              (BucketTransform 16) IntegerType)
    as [f [Hf [Hnone [Hzero _]]]]; [reflexivity | reflexivity |].
  exists f. split; [exact Hf | split; assumption].
Defined.

Lemma truncate_transform_values_witness :
  exists f,
    transform (fun _ => 0) (fun _ => []) (fun _ => Raise TypeError)
              (fun _ _ => Raise TypeError) (fun _ _ _ => Raise TypeError)
              (TruncateTransform 5 None) LongType = Ok f /\
    forall z, z <> 0 -> f (VInt z) = Ok (VInt (z - z mod 5)).
Proof.
  destruct (truncate_transform_values
              (fun _ => 0) (fun _ => []) (fun _ => Raise TypeError)
              (fun _ _ => Raise TypeError) (fun _ _ _ => Raise TypeError)
              5 None LongType) as [Hint _]; [lia|].
  destruct Hint as [f [Hf [Hz _]]]; [reflexivity|].
  exists f. split; assumption.
Defined.

Lemma unsupported_transform_raises_witness :
  transform (fun _ => 0) (fun _ => []) (fun _ => Raise TypeError)
            (fun _ _ => Raise TypeError) (fun _ _ _ => Raise TypeError)
            (BucketTransform 16) (OtherType true) = Raise ValueError.
Proof.
  apply (proj2 (unsupported_transform_raises
                  (fun _ => 0) (fun _ => []) (fun _ => Raise TypeError)
                  (fun _ _ => Raise TypeError) (fun _ _ _ => Raise TypeError)
                  (BucketTransform 16) (OtherType true) "frobnicate"));
    reflexivity.
Defined.

(** The truncations of strings that the documentation gives. *)
Example truncate_5_abcdefg :
  (f <- transform (fun _ => 0) (fun _ => []) (fun _ => Raise TypeError)
                  (fun _ _ => Raise TypeError) (fun _ _ _ => Raise TypeError)
                  (TruncateTransform_init 5) StringType ;;
   f (VStr "abcdefg")) = Ok (VStr "abcde").
Proof. reflexivity. Qed.

Example truncate_10_ab :
  (f <- transform (fun _ => 0) (fun _ => []) (fun _ => Raise TypeError)
                  (fun _ _ => Raise TypeError) (fun _ _ _ => Raise TypeError)
                  (TruncateTransform_init 10) StringType ;;
   f (VStr "ab")) = Ok (VStr "ab").
Proof. reflexivity. Qed.

(** Floor-style modulo on a negative input. *)
Example truncate_10_minus_1 :
  (f <- transform (fun _ => 0) (fun _ => []) (fun _ => Raise TypeError)
                  (fun _ _ => Raise TypeError) (fun _ _ _ => Raise TypeError)
                  (TruncateTransform_init 10) IntegerType ;;
   f (VInt (-1))) = Ok (VInt (-10)).
Proof. reflexivity. Qed.

(** With both source types assigned to the string type, the wider truncation
    satisfies the order of the narrower one and not the other way round. *)
Example truncate_order_on_strings :
  satisfies_order_of (TruncateTransform 5 (Some StringType))
                     (ATransform (TruncateTransform 2 (Some StringType))) = Ok true /\
  satisfies_order_of (TruncateTransform 2 (Some StringType))
                     (ATransform (TruncateTransform 5 (Some StringType))) = Ok false.
Proof. split; reflexivity. Qed.

(** * Further properties of the module *)

(** ** Equality of transforms *)

Lemma str_of_int_inj (n m : Z) : str_of_int n = str_of_int m -> n = m.
Proof.
  intros H. pose proof (int_of_str_of_int n) as Hn.
  rewrite H, int_of_str_of_int in Hn. congruence.
Qed.

Lemma append_snoc_inj (s t : string) (c : ascii) :
  s ++ String c EmptyString = t ++ String c EmptyString -> s = t.
Proof.
  revert t. induction s as [|a s IH]; intros [|b t] H; simpl in H.
  - reflexivity.
  - injection H as _ H. destruct t; discriminate H.
  - injection H as _ H. destruct s; discriminate H.
  - injection H as -> H. f_equal. now apply IH.
Qed.

(** X1: equality by root string tells the classes and the parameters apart:
    transforms of different classes are never equal, two bucket transforms
    are equal exactly when their bucket counts are, and two truncate
    transforms exactly when their widths are, whatever their source types. *)
Theorem eq_by_class_and_parameter :
  (forall a b, same_class a b = false -> __eq__ a (ATransform b) = false) /\
  (forall n m, __eq__ (BucketTransform n) (ATransform (BucketTransform m)) = true <-> n = m) /\
  (forall w w' st st',
      __eq__ (TruncateTransform w st) (ATransform (TruncateTransform w' st')) = true
      <-> w = w').
Proof.
  split; [|split].
  - intros [| |n|w st|r] [| |m|w' st'|r'] H; try discriminate H; reflexivity.
  - intros n m. simpl. rewrite String.eqb_eq. split.
    + intros [= H]. apply str_of_int_inj. now apply append_snoc_inj in H.
    + now intros ->.
  - intros w w' st st'. simpl. rewrite String.eqb_eq. split.
    + intros [= H]. apply str_of_int_inj. now apply append_snoc_inj in H.
    + now intros ->.
Qed.

(** ** The order predicate *)

(** X2: every transform satisfies its own order, and the call does not raise,
    also for a truncate transform whose source type was never assigned. *)
Theorem satisfies_order_of_self (t : Transform) :
  satisfies_order_of t (ATransform t) = Ok true.
Proof.
  destruct t as [| |n|w st|r]; simpl; try reflexivity.
  - now rewrite String.eqb_refl.
  - unfold TruncateTransform_satisfies_order_of. simpl. now rewrite String.eqb_refl.
Qed.

(** X3: when [satisfies_order_of] answers true, the two transforms are equal
    or both preserve order; a bucket, void or unknown transform satisfies
    only the order of its equals. *)
Theorem satisfies_order_of_sound (a b : Transform) :
  satisfies_order_of a (ATransform b) = Ok true ->
  __eq__ a (ATransform b) = true \/
  (preserves_order a = true /\ preserves_order b = true).
Proof.
  destruct a as [| |n|w st|r].
  - simpl. intros [= H]. right. now split.
  - simpl. intros [= H]. now left.
  - simpl. intros [= H]. now left.
  - cbn [satisfies_order_of]. unfold TruncateTransform_satisfies_order_of.
    destruct (__eq__ (TruncateTransform w st) (ATransform b)) eqn:E.
    + intros _. now left.
    + destruct st as [ty|]; simpl; [|discriminate].
      destruct (isinstance_StringType ty); [|discriminate].
      destruct b as [| |m|w' [ty'|]|r']; simpl; try discriminate.
      intros _. right. now split.
  - simpl. intros [= H]. now left.
Qed.

Lemma satisfies_order_of_sound_witness :
  __eq__ IdentityTransform (ATransform (TruncateTransform_init 8)) = true \/
  (preserves_order IdentityTransform = true /\
   preserves_order (TruncateTransform_init 8) = true).
Proof. apply satisfies_order_of_sound. reflexivity. Defined.

(** ** What the validator can return *)

(** X4: the validator returns the identity transform only for ["identity"],
    the void transform only for ["void"], and an unknown transform only with
    the input itself as raw specifier, for an input that starts with neither
    ["bucket"] nor ["truncate"]; a bucket transform only for an input that
    starts with ["bucket"]. *)
Theorem validate_inversion (s : string) (t : Transform) :
  validate s = Ok t ->
  match t with
  | IdentityTransform => s = "identity"
  | VoidTransform => s = "void"
  | BucketTransform _ => String.prefix BUCKET s = true
  | TruncateTransform _ st => st = None
  | UnknownTransform raw =>
      raw = s /\ s <> "identity" /\ s <> "void" /\
      String.prefix BUCKET s = false /\ String.prefix TRUNCATE s = false
  end.
Proof.
  unfold validate.
  destruct (String.eqb_spec s IDENTITY) as [Hi|Hi]; [now intros [= <-]|].
  destruct (String.eqb_spec s VOID) as [Hv|Hv]; [now intros [= <-]|].
  destruct (String.prefix BUCKET s) eqn:Hb.
  - destruct (match_ BUCKET_PARSER s); simpl; [|discriminate]. now intros [= <-].
  - destruct (String.prefix TRUNCATE s) eqn:Ht.
    + destruct (match_ BUCKET_PARSER s); simpl; [|discriminate]. now intros [= <-].
    + intros [= <-]. repeat split; assumption.
Qed.

Lemma validate_inversion_witness :
  "frobnicate" = "frobnicate" /\ "frobnicate" <> "identity" /\ "frobnicate" <> "void" /\
  String.prefix BUCKET "frobnicate" = false /\ String.prefix TRUNCATE "frobnicate" = false.
Proof. apply (validate_inversion "frobnicate" (UnknownTransform "frobnicate")). reflexivity. Defined.

(** ** Byte packing *)

Lemma byte_to_Z_range (b : byte) : 0 <= byte_to_Z b < 256.
Proof.
  unfold byte_to_Z. pose proof (Byte.to_N_bounded b). lia.
Qed.

Lemma byte_to_Z_of_Z (z : Z) : byte_to_Z (byte_of_Z z) = z mod 256.
Proof.
  unfold byte_of_Z, byte_to_Z.
  pose proof (Z.mod_pos_bound z 256 ltac:(lia)) as Hr.
  destruct (Byte.of_N (Z.to_N (z mod 256))) as [b|] eqn:E.
  - apply Byte.to_of_N in E. rewrite E. apply Z2N.id. lia.
  - apply Byte.of_N_None_iff in E. lia.
Qed.

Lemma byte_of_Z_to_Z (b : byte) : byte_of_Z (byte_to_Z b) = b.
Proof.
  unfold byte_of_Z. rewrite Z.mod_small by apply byte_to_Z_range.
  unfold byte_to_Z. rewrite N2Z.id, Byte.of_to_N. reflexivity.
Qed.

Lemma length_le_bytes (n : nat) (z : Z) : List.length (le_bytes n z) = n.
Proof.
  revert z. induction n as [|n IH]; intros z; simpl; [reflexivity | now rewrite IH].
Qed.

Lemma le_decode_le_bytes (n : nat) (z : Z) :
  le_decode (le_bytes n z) = z mod 256 ^ Z.of_nat n.
Proof.
  revert z. induction n as [|n IH]; intros z.
  - simpl. now rewrite Z.mod_1_r.
  - cbn [le_bytes le_decode]. rewrite byte_to_Z_of_Z, IH.
    rewrite Nat2Z.inj_succ, Z.pow_succ_r by lia.
    rewrite Z.rem_mul_r; [reflexivity | lia |].
    apply Z.pow_pos_nonneg; lia.
Qed.

Lemma le_decode_app (l1 l2 : list byte) :
  le_decode (l1 ++ l2) = le_decode l1 + 256 ^ Z.of_nat (List.length l1) * le_decode l2.
Proof.
  induction l1 as [|b l1 IH].
  - cbn [app le_decode List.length]. change (256 ^ Z.of_nat 0) with 1. lia.
  - cbn [app le_decode List.length]. rewrite IH, Nat2Z.inj_succ, Z.pow_succ_r by lia. lia.
Qed.

(** X5: [struct.pack("<q", z)] of an integer in the signed 64-bit range gives
    eight bytes from which the integer is read back; so different integers
    are hashed from different byte strings. *)
Theorem struct_pack_q_roundtrip (z : Z) :
  - 2 ^ 63 <= z < 2 ^ 63 ->
  exists b, struct_pack_q (VInt z) = Ok b /\
    List.length b = 8%nat /\ signed64 (le_decode b) = z.
Proof.
  intros Hz. exists (le_bytes 8 z). split; [|split].
  - unfold struct_pack_q.
    destruct (- 2 ^ 63 <=? z) eqn:E1; [|apply Z.leb_gt in E1; lia].
    destruct (z <? 2 ^ 63) eqn:E2; [reflexivity | apply Z.ltb_ge in E2; lia].
  - apply length_le_bytes.
  - rewrite le_decode_le_bytes. change (256 ^ Z.of_nat 8) with (2 ^ 64).
    unfold signed64. destruct (Z_lt_le_dec z 0) as [Hneg|Hpos].
    + replace (z mod 2 ^ 64) with (z + 2 ^ 64).
      * destruct (z + 2 ^ 64 <? 2 ^ 63) eqn:E; [apply Z.ltb_lt in E; lia | lia].
      * apply Z.mod_unique with (-1); lia.
    + rewrite Z.mod_small by lia.
      destruct (z <? 2 ^ 63) eqn:E; [reflexivity | apply Z.ltb_ge in E; lia].
Qed.

Lemma struct_pack_q_roundtrip_witness :
  exists b, struct_pack_q (VInt (-34)) = Ok b /\
    List.length b = 8%nat /\ signed64 (le_decode b) = -34.
Proof. apply struct_pack_q_roundtrip. lia. Defined.

(** X6: the packing of a UUID is sixteen bytes, the 128-bit integer of the
    UUID in big-endian order: reading them back gives the integer. *)
Theorem struct_pack_QQ_roundtrip (i : Z) :
  0 <= i < 2 ^ 128 ->
  exists b, struct_pack_QQ (VUUID i) = Ok b /\
    List.length b = 16%nat /\ be_decode b = i.
Proof.
  intros Hi. eexists. split; [reflexivity|]. split.
  - unfold be_bytes. rewrite length_app, !length_rev, !length_le_bytes. reflexivity.
  - unfold be_decode, be_bytes.
    rewrite rev_app_distr, !rev_involutive, le_decode_app, length_le_bytes.
    rewrite !le_decode_le_bytes.
    change 18446744073709551615 with (Z.ones 64).
    rewrite !Z.land_ones, Z.shiftr_div_pow2 by lia.
    change (256 ^ Z.of_nat 8) with (2 ^ 64).
    rewrite !Z.mod_mod by lia.
    assert (Hhi : 0 <= i / 2 ^ 64 < 2 ^ 64).
    { split; [apply Z.div_pos; lia|].
      apply Z.div_lt_upper_bound; [lia|]. change (2 ^ 64 * 2 ^ 64) with (2 ^ 128). lia. }
    rewrite (Z.mod_small (i / 2 ^ 64)) by exact Hhi.
    pose proof (Z.div_mod i (2 ^ 64) ltac:(lia)). lia.
Qed.

Lemma struct_pack_QQ_roundtrip_witness :
  exists b, struct_pack_QQ (VUUID (2 ^ 100 + 7)) = Ok b /\
    List.length b = 16%nat /\ be_decode b = 2 ^ 100 + 7.
Proof. apply struct_pack_QQ_roundtrip. split; [lia | reflexivity]. Defined.

(** ** Prefixes of strings *)

Lemma substring_min (n : nat) (s : string) :
  substring 0 (Nat.min n (String.length s)) s = substring 0 n s.
Proof.
  revert s. induction n as [|n IH]; intros [|a s]; simpl; try reflexivity.
  now rewrite IH.
Qed.

Lemma substring_substring (n' n : nat) (s : string) :
  (n' <= n)%nat -> substring 0 n' (substring 0 n s) = substring 0 n' s.
Proof.
  revert n s. induction n' as [|n' IH]; intros n s Hn.
  - destruct (substring 0 n s), s; reflexivity.
  - destruct n as [|n]; [lia|]. destruct s as [|a s]; simpl; [reflexivity|].
    rewrite IH by lia. reflexivity.
Qed.

Lemma substring_compare (n : nat) (s1 s2 : string) :
  String.leb s1 s2 = true ->
  String.leb (substring 0 n s1) (substring 0 n s2) = true.
Proof.
  unfold String.leb. revert s1 s2.
  induction n as [|n IH]; intros [|a s1] [|b s2]; simpl; try reflexivity; try discriminate.
  destruct (Ascii.compare a b); try reflexivity; try discriminate. apply IH.
Qed.

Lemma slice_stop_take (width : Z) (len : nat) :
  0 < width ->
  slice_stop (Z.min width (Z.of_nat len)) (Z.of_nat len) = Nat.min (Z.to_nat width) len.
Proof.
  intros Hw. unfold slice_stop.
  destruct (Z.min width (Z.of_nat len) <? 0) eqn:E; [apply Z.ltb_lt in E; lia | lia].
Qed.

(** ** The truncate mapping *)

Section MappingProperties.

Variable mmh3_hash : list byte -> Z.
Variable utf8_encode : string -> list byte.
Variable decimal_to_bytes : value -> result (list byte).
Variable truncate_decimal : value -> Z -> result value.
Variable decimal_sub_mod : Z -> Z -> Z -> result value.

Local Abbreviation transform' :=
  (transform mmh3_hash utf8_encode decimal_to_bytes truncate_decimal decimal_sub_mod).
Local Abbreviation bucket_transform' :=
  (BucketTransform_transform mmh3_hash utf8_encode decimal_to_bytes).

Lemma py_mod_pos (a b : Z) : 0 < b -> py_mod a b = Ok (a mod b).
Proof.
  intros Hb. unfold py_mod. destruct (b =? 0) eqn:E; [apply Z.eqb_eq in E; lia | reflexivity].
Qed.

(** The truncate closure on an integer source type. *)
Lemma truncate_int_closure (W : Z) (st : option IcebergType) (source : IcebergType)
      (f : value -> result value) :
  class_in (type_of source) [cInteger; cLong] = true ->
  transform' (TruncateTransform W st) source = Ok f ->
  forall v,
    f v = if truthy v then
            match v with
            | VInt z => m <- py_mod z W ;; Ok (VInt (z - m))
            | VDecimal u e => decimal_sub_mod u e W
            | _ => Raise TypeError
            end
          else Ok VNone.
Proof.
  intros Hc Hf v.
  destruct source; try discriminate Hc; injection Hf as <-; reflexivity.
Qed.

(** The truncate closure on an integer source type, applied to an integer. *)
Lemma truncate_int_apply (W : Z) (st : option IcebergType) (source : IcebergType)
      (f : value -> result value) (z : Z) :
  0 < W ->
  class_in (type_of source) [cInteger; cLong] = true ->
  transform' (TruncateTransform W st) source = Ok f ->
  f (VInt z) = Ok (if z =? 0 then VNone else VInt (z - z mod W)).
Proof.
  intros HW Hc Hf.
  destruct source; try discriminate Hc; injection Hf as <-; simpl;
    (destruct (z =? 0); simpl; [reflexivity | now rewrite py_mod_pos]).
Qed.

(** The truncate closure on a string or binary source type. *)
Lemma truncate_seq_apply (W : Z) (st : option IcebergType) (source : IcebergType)
      (f : value -> result value) :
  0 < W ->
  class_in (type_of source) [cString; cBinary] = true ->
  transform' (TruncateTransform W st) source = Ok f ->
  forall v,
    f v = if truthy v then
            match v with
            | VStr s => Ok (VStr (substring 0 (Z.to_nat W) s))
            | VBytes b => Ok (VBytes (firstn (Z.to_nat W) b))
            | _ => Raise TypeError
            end
          else Ok VNone.
Proof.
  intros HW Hc Hf v.
  assert (Hs : forall s, substring 0 (slice_stop (Z.min W (Z.of_nat (String.length s)))
                                                 (Z.of_nat (String.length s))) s
                         = substring 0 (Z.to_nat W) s).
  { intros s. rewrite slice_stop_take by exact HW. apply substring_min. }
  assert (Hb : forall b : list byte, firstn (slice_stop (Z.min W (Z.of_nat (List.length b)))
                                            (Z.of_nat (List.length b))) b
                         = firstn (Z.to_nat W) b).
  { intros b. rewrite slice_stop_take by exact HW.
    destruct (Nat.leb_spec (List.length b) (Z.to_nat W)) as [Hl|Hl].
    - rewrite Nat.min_r by exact Hl. now rewrite firstn_all, firstn_all2.
    - f_equal. lia. }
  destruct source; try discriminate Hc; injection Hf as <-;
    (destruct (truthy v) eqn:Hv; [|reflexivity]);
    (destruct v; try reflexivity; cbv zeta; [now rewrite Hs | now rewrite Hb]).
Qed.

(** X7: with a positive width, truncating a truncated value changes nothing:
    whenever the mapping returns a truthy result [r] for an [int], [str] or
    [bytes] input, it maps [r] to [r]. *)
Theorem truncate_idempotent (W : Z) (st : option IcebergType) (source : IcebergType)
        (f : value -> result value) (v r : value) :
  0 < W ->
  class_in (type_of source) [cInteger; cLong; cString; cBinary] = true ->
  transform' (TruncateTransform W st) source = Ok f ->
  match v with VDecimal _ _ => False | _ => True end ->
  f v = Ok r -> truthy r = true -> f r = Ok r.
Proof.
  intros HW Hc Hf Hv Hr Ht.
  destruct (class_in (type_of source) [cInteger; cLong]) eqn:Hi.
  - assert (Hz : exists z, v = VInt z).
    { rewrite (truncate_int_closure W st source f Hi Hf) in Hr.
      destruct (truthy v); [|injection Hr as <-; discriminate Ht].
      destruct v as [|z|s|b|u e|i]; try discriminate Hr; [|now elim Hv].
      now exists z. }
    destruct Hz as [z ->].
    rewrite (truncate_int_apply W st source f z HW Hi Hf) in Hr.
    destruct (z =? 0); injection Hr as <-; [discriminate Ht|].
    rewrite (truncate_int_apply W st source f _ HW Hi Hf).
    simpl in Ht. destruct (z - z mod W =? 0); [discriminate Ht|].
    do 2 f_equal.
    destruct (truncate_int_largest_multiple W z HW) as [[k Hk] _].
    rewrite Hk, Z.mod_mul by lia. lia.
  - assert (Hs : class_in (type_of source) [cString; cBinary] = true).
    { destruct source; try discriminate Hc; try discriminate Hi; reflexivity. }
    pose proof (truncate_seq_apply W st source f HW Hs Hf) as Hf'.
    rewrite Hf' in Hr. rewrite Hf', Ht.
    destruct (truthy v); [|injection Hr as <-; discriminate Ht].
    destruct v as [|z|s|b|u e|i]; try discriminate Hr; injection Hr as <-.
    + now rewrite substring_substring by lia.
    + now rewrite firstn_firstn, Nat.min_id.
Qed.

(** X8: an integer strictly between [0] and the width is truncated to [0],
    a partition value of its own, while the integer [0] itself is mapped to
    [None]. *)
Theorem truncate_zero_partition (W : Z) (st : option IcebergType)
        (source : IcebergType) (f : value -> result value) (z : Z) :
  class_in (type_of source) [cInteger; cLong] = true ->
  transform' (TruncateTransform W st) source = Ok f ->
  0 < z < W ->
  f (VInt z) = Ok (VInt 0) /\ f (VInt 0) = Ok VNone.
Proof.
  intros Hc Hf Hz.
  rewrite (truncate_int_apply W st source f z ltac:(lia) Hc Hf).
  rewrite (truncate_int_apply W st source f 0 ltac:(lia) Hc Hf).
  destruct (z =? 0) eqn:E; [apply Z.eqb_eq in E; lia|].
  rewrite Z.mod_small by lia. rewrite Z.sub_diag. split; reflexivity.
Qed.

(** X9: truncation preserves order.  On an integer source type, a smaller
    or equal integer gets a smaller or equal result; on a string source
    type, a string that is not greater gets a result that is not greater. *)
Theorem truncate_monotone (W : Z) (st : option IcebergType) (source : IcebergType)
        (f : value -> result value) :
  0 < W ->
  transform' (TruncateTransform W st) source = Ok f ->
  (class_in (type_of source) [cInteger; cLong] = true ->
   forall z1 z2 r1 r2,
     f (VInt z1) = Ok (VInt r1) -> f (VInt z2) = Ok (VInt r2) ->
     z1 <= z2 -> r1 <= r2) /\
  (class_in (type_of source) [cString; cBinary] = true ->
   forall s1 s2 p1 p2,
     f (VStr s1) = Ok (VStr p1) -> f (VStr s2) = Ok (VStr p2) ->
     String.leb s1 s2 = true -> String.leb p1 p2 = true).
Proof.
  intros HW Hf. split; intros Hc.
  - intros z1 z2 r1 r2 H1 H2 Hle.
    rewrite (truncate_int_apply W st source f z1 HW Hc Hf) in H1.
    rewrite (truncate_int_apply W st source f z2 HW Hc Hf) in H2.
    destruct (z1 =? 0); [discriminate H1|]. destruct (z2 =? 0); [discriminate H2|].
    injection H1 as <-. injection H2 as <-.
    pose proof (Z.div_mod z1 W ltac:(lia)). pose proof (Z.div_mod z2 W ltac:(lia)).
    pose proof (Z.div_le_mono z1 z2 W HW Hle). nia.
  - intros s1 s2 p1 p2 H1 H2 Hle.
    rewrite (truncate_seq_apply W st source f HW Hc Hf) in H1, H2.
    destruct (truthy (VStr s1)); [|discriminate H1].
    destruct (truthy (VStr s2)); [|discriminate H2].
    injection H1 as <-. injection H2 as <-. now apply substring_compare.
Qed.

(** X10: on a string or binary source type, truncating to a width and then
    to a smaller or equal width gives what truncating to the smaller width
    gives directly; this is what makes the wider truncation satisfy the order
    of the narrower one. *)
Theorem truncate_narrower_after_wider (w w' : Z) (st st' : option IcebergType)
        (source : IcebergType) (f f' : value -> result value) (v r : value) :
  0 < w' <= w ->
  class_in (type_of source) [cString; cBinary] = true ->
  transform' (TruncateTransform w st) source = Ok f ->
  transform' (TruncateTransform w' st') source = Ok f' ->
  f v = Ok r -> f' r = f' v.
Proof.
  intros Hw Hc Hf Hf' Hr.
  pose proof (truncate_seq_apply w st source f ltac:(lia) Hc Hf) as E.
  pose proof (truncate_seq_apply w' st' source f' ltac:(lia) Hc Hf') as E'.
  rewrite E in Hr. rewrite !E'.
  destruct (truthy v) eqn:Hv; [|now injection Hr as <-].
  destruct v as [|z|s|b|u e|i]; try discriminate Hr; injection Hr as <-.
  - destruct s as [|a s]; [discriminate Hv|].
    destruct (Z.to_nat w) as [|n] eqn:En; [lia|].
    destruct (Z.to_nat w') as [|n'] eqn:En'; [lia|].
    simpl. do 2 f_equal. rewrite substring_substring by lia. reflexivity.
  - destruct b as [|x b]; [discriminate Hv|].
    destruct (Z.to_nat w) as [|n] eqn:En; [lia|].
    destruct (Z.to_nat w') as [|n'] eqn:En'; [lia|].
    simpl. do 3 f_equal. rewrite firstn_firstn. f_equal. lia.
Qed.

End MappingProperties.

(** ** The bucket mapping and the capability gate *)

Section BucketProperties.

Variable mmh3_hash : list byte -> Z.
Variable utf8_encode : string -> list byte.
Variable decimal_to_bytes : value -> result (list byte).
Variable truncate_decimal : value -> Z -> result value.
Variable decimal_sub_mod : Z -> Z -> Z -> result value.

Local Abbreviation transform' :=
  (transform mmh3_hash utf8_encode decimal_to_bytes truncate_decimal decimal_sub_mod).
Local Abbreviation hash_func' := (hash_func mmh3_hash utf8_encode decimal_to_bytes).

(** The bucket closure in terms of the selected hash function. *)
Lemma bucket_closure (n : Z) (source : IcebergType) (f : value -> result value) :
  transform' (BucketTransform n) source = Ok f ->
  exists hf, hash_func' source = Ok hf /\
    forall v, f v = if truthy v then
                      h <- hf v ;; r <- py_mod (Z.land h IntegerType_max) n ;; Ok (VInt r)
                    else Ok VNone.
Proof.
  simpl. unfold BucketTransform_transform.
  destruct (hash_func' source) as [hf|e]; simpl; [|discriminate].
  intros [= <-]. exists hf. split; reflexivity.
Qed.

(** X11: with a positive bucket count [n], whatever the hash function
    returns (negative hashes included), every value the bucket mapping
    returns is [None] or an integer in the range from [0] to [n - 1]. *)
Theorem bucket_value_in_range (n : Z) (source : IcebergType)
        (f : value -> result value) (v r : value) :
  0 < n ->
  transform' (BucketTransform n) source = Ok f ->
  f v = Ok r ->
  r = VNone \/ exists k, r = VInt k /\ 0 <= k < n.
Proof.
  intros Hn Hf Hr.
  destruct (bucket_closure n source f Hf) as [hf [_ E]]. rewrite E in Hr.
  destruct (truthy v); [|injection Hr as <-; now left].
  destruct (hf v) as [h|e]; simpl in Hr; [|discriminate].
  unfold py_mod in Hr. destruct (n =? 0) eqn:E0; [apply Z.eqb_eq in E0; lia|].
  simpl in Hr. injection Hr as <-. right. eexists. split; [reflexivity|].
  apply Z.mod_pos_bound. exact Hn.
Qed.

(** X12: on the integer-like source types (integer, long, date, time,
    timestamp, timestamptz) the bucket mapping returns a bucket for every
    non-zero integer of the signed 64-bit range, and raises the packing
    error for every integer outside that range. *)
Theorem bucket_integer_bounds (n : Z) (source : IcebergType)
        (f : value -> result value) (z : Z) :
  0 < n ->
  class_in (type_of source) [cInteger; cLong; cDate; cTime; cTimestamp; cTimestamptz] = true ->
  transform' (BucketTransform n) source = Ok f ->
  (- 2 ^ 63 <= z < 2 ^ 63 -> z <> 0 ->
   f (VInt z) = Ok (VInt (Z.land (mmh3_hash (le_bytes 8 z)) IntegerType_max mod n))) /\
  (z < - 2 ^ 63 \/ 2 ^ 63 <= z -> f (VInt z) = Raise StructError).
Proof.
  intros Hn Hc Hf.
  assert (E : forall v, f v = if truthy v then
                                h <- (b <- struct_pack_q v ;; Ok (mmh3_hash b)) ;;
                                r <- py_mod (Z.land h IntegerType_max) n ;; Ok (VInt r)
                              else Ok VNone).
  { intros v. destruct source; try discriminate Hc; injection Hf as <-; reflexivity. }
  split.
  - intros Hz Hnz. rewrite E. apply Z.eqb_neq in Hnz.
    cbn [truthy]. rewrite Hnz. cbn [negb]. unfold struct_pack_q.
    destruct (- 2 ^ 63 <=? z) eqn:E1; [|apply Z.leb_gt in E1; lia].
    destruct (z <? 2 ^ 63) eqn:E2; [|apply Z.ltb_ge in E2; lia].
    cbn [andb bind]. now rewrite py_mod_pos.
  - intros Hz. rewrite E.
    assert (Hnz : (z =? 0) = false) by (apply Z.eqb_neq; lia).
    cbn [truthy]. rewrite Hnz. cbn [negb]. unfold struct_pack_q.
    destruct (- 2 ^ 63 <=? z) eqn:E1; [|reflexivity].
    destruct (z <? 2 ^ 63) eqn:E2; [|reflexivity].
    apply Z.leb_le in E1. apply Z.ltb_lt in E2. lia.
Qed.

(** X13: the bucket mapping does not depend on which integer-like source
    type it is bound to, nor on which of string, fixed and binary (whatever
    the fixed length): within each group the same function is returned. *)
Theorem bucket_source_class_independent (n : Z) (s1 s2 : IcebergType)
        (cs : list TypeClass) :
  cs = [cInteger; cLong; cDate; cTime; cTimestamp; cTimestamptz] \/
  cs = [cString; cFixed; cBinary] ->
  class_in (type_of s1) cs = true -> class_in (type_of s2) cs = true ->
  transform' (BucketTransform n) s1 = transform' (BucketTransform n) s2.
Proof.
  intros [-> | ->] H1 H2;
    destruct s1; try discriminate H1; destruct s2; try discriminate H2; reflexivity.
Qed.

(** X14: the constructors accept a zero parameter, and then the mappings
    divide by zero: a bucket transform of zero buckets raises on every truthy
    input that it can hash, and a truncate transform of zero width raises on
    every non-zero integer. *)
Theorem zero_parameter_raises (source : IcebergType) (f : value -> result value) :
  (forall hf v h,
      transform' (BucketTransform 0) source = Ok f ->
      hash_func' source = Ok hf -> truthy v = true -> hf v = Ok h ->
      f v = Raise ZeroDivisionError) /\
  (forall z,
      transform' (TruncateTransform_init 0) source = Ok f ->
      class_in (type_of source) [cInteger; cLong] = true -> z <> 0 ->
      f (VInt z) = Raise ZeroDivisionError).
Proof.
  split.
  - intros hf v h Hf Hhf Hv Hh.
    destruct (bucket_closure 0 source f Hf) as [hf' [Hhf' E]].
    rewrite Hhf in Hhf'. injection Hhf' as <-.
    rewrite E, Hv, Hh. reflexivity.
  - intros z Hf Hc Hz. apply Z.eqb_neq in Hz.
    destruct source; try discriminate Hc; injection Hf as <-; simpl; rewrite Hz; reflexivity.
Qed.

(** X15: [can_transform] is a sound gate for every class of transform: on a
    source type that it accepts, [transform] returns a mapping function and
    does not raise. *)
Theorem can_transform_sound (self : Transform) (source : IcebergType) :
  can_transform self source = true ->
  exists f, transform' self source = Ok f.
Proof.
  intros Hcan.
  destruct self as [| |n|w st|raw]; try discriminate Hcan;
    try (eexists; reflexivity);
    destruct source; try discriminate Hcan; eexists; reflexivity.
Qed.

End BucketProperties.

(** ** Base64 and human-readable strings *)

Lemma list_ind3 (A : Type) (P : list A -> Prop) :
  P [] -> (forall x, P [x]) -> (forall x y, P [x; y]) ->
  (forall x y z l, P l -> P (x :: y :: z :: l)) ->
  forall l, P l.
Proof.
  intros H0 H1 H2 H3 l.
  assert (H : P l /\ (forall x, P (x :: l)) /\ (forall x y, P (x :: y :: l))).
  { induction l as [|a l [IH0 [IH1 IH2]]].
    - repeat split; auto.
    - split; [apply IH1|]. split; [intros x; apply IH2|]. intros x y. now apply H3. }
  apply H.
Qed.

(** The sixty-four digits are distinct, and none is the padding character. *)
Lemma b64_index_char (i : Z) :
  0 <= i < 64 ->
  b64_index (b64_char i) = Some i /\ Ascii.eqb (b64_char i) "=" = false.
Proof.
  intros Hi.
  assert (H : forallb (fun n => match b64_index (b64_char (Z.of_nat n)) with
                                | Some j => (j =? Z.of_nat n)
                                            && negb (Ascii.eqb (b64_char (Z.of_nat n)) "=")
                                | None => false
                                end) (seq 0 64) = true) by (vm_compute; reflexivity).
  rewrite forallb_forall in H. specialize (H (Z.to_nat i)).
  rewrite Z2Nat.id in H by lia.
  assert (Hin : In (Z.to_nat i) (seq 0 64)) by (apply in_seq; lia).
  specialize (H Hin).
  destruct (b64_index (b64_char i)) as [j|]; [|discriminate H].
  apply andb_true_iff in H. destruct H as [Hj Hne].
  apply Z.eqb_eq in Hj. subst j. split; [reflexivity|].
  now destruct (Ascii.eqb (b64_char i) "=").
Qed.

(** X16: [_base64encode] gives four characters for every group of three
    bytes, the last group padded. *)
Theorem base64encode_length (buffer : list byte) :
  String.length (_base64encode buffer) = (4 * ((List.length buffer + 2) / 3))%nat.
Proof.
  unfold _base64encode.
  induction buffer as [|x|x y|x y z l IH] using list_ind3; try reflexivity.
  cbn [b64encode String.length List.length]. rewrite IH.
  replace (S (S (S (List.length l))) + 2)%nat with (List.length l + 2 + 1 * 3)%nat by lia.
  rewrite Nat.div_add by lia. lia.
Qed.

Lemma b64decode_b64encode (buffer : list byte) :
  b64decode (b64encode buffer) = Some buffer.
Proof.
  { induction buffer as [|x|x y|x y z l IH] using list_ind3.
    - reflexivity.
    - pose proof (byte_to_Z_range x) as Hx.
      cbn [b64encode]. cbv zeta. set (a := byte_to_Z x) in *.
      cbn [b64decode].
      destruct (b64_index_char (a / 4)) as [-> _]; [Z.div_mod_to_equations; lia|].
      destruct (b64_index_char (a mod 4 * 16)) as [-> _]; [Z.div_mod_to_equations; lia|].
      cbn [Ascii.eqb Bool.eqb].
      replace (a / 4 * 4 + a mod 4 * 16 / 16) with a by (Z.div_mod_to_equations; lia).
      unfold a. now rewrite byte_of_Z_to_Z.
    - pose proof (byte_to_Z_range x) as Hx. pose proof (byte_to_Z_range y) as Hy.
      cbn [b64encode]. cbv zeta.
      set (a := byte_to_Z x) in *. set (b := byte_to_Z y) in *.
      cbn [b64decode].
      destruct (b64_index_char (a / 4)) as [-> _]; [Z.div_mod_to_equations; lia|].
      destruct (b64_index_char (a mod 4 * 16 + b / 16)) as [-> _];
        [Z.div_mod_to_equations; lia|].
      destruct (b64_index_char (b mod 16 * 4)) as [-> ->]; [Z.div_mod_to_equations; lia|].
      cbn [Ascii.eqb Bool.eqb].
      replace (a / 4 * 4 + (a mod 4 * 16 + b / 16) / 16) with a
        by (Z.div_mod_to_equations; lia).
      replace ((a mod 4 * 16 + b / 16) mod 16 * 16 + b mod 16 * 4 / 4) with b
        by (Z.div_mod_to_equations; lia).
      unfold a, b. now rewrite !byte_of_Z_to_Z.
    - pose proof (byte_to_Z_range x) as Hx. pose proof (byte_to_Z_range y) as Hy.
      pose proof (byte_to_Z_range z) as Hz.
      cbn [b64encode]. cbv zeta.
      set (a := byte_to_Z x) in *. set (b := byte_to_Z y) in *. set (c := byte_to_Z z) in *.
      cbn [b64decode].
      destruct (b64_index_char (a / 4)) as [-> _]; [Z.div_mod_to_equations; lia|].
      destruct (b64_index_char (a mod 4 * 16 + b / 16)) as [-> _];
        [Z.div_mod_to_equations; lia|].
      destruct (b64_index_char (b mod 16 * 4 + c / 64)) as [-> ->];
        [Z.div_mod_to_equations; lia|].
      destruct (b64_index_char (c mod 64)) as [-> ->]; [Z.div_mod_to_equations; lia|].
      rewrite IH.
      replace (a / 4 * 4 + (a mod 4 * 16 + b / 16) / 16) with a
        by (Z.div_mod_to_equations; lia).
      replace ((a mod 4 * 16 + b / 16) mod 16 * 16 + (b mod 16 * 4 + c / 64) / 4) with b
        by (Z.div_mod_to_equations; lia).
      replace ((b mod 16 * 4 + c / 64) mod 4 * 64 + c mod 64) with c
        by (Z.div_mod_to_equations; lia).
      unfold a, b, c. now rewrite !byte_of_Z_to_Z. }
Qed.

Lemma b64encode_inj (b1 b2 : list byte) : b64encode b1 = b64encode b2 -> b1 = b2.
Proof.
  intros H. pose proof (b64decode_b64encode b1) as H1.
  rewrite H, b64decode_b64encode in H1. congruence.
Qed.

(** X17: [_base64encode] loses nothing: the byte string is decoded back from
    its encoding. *)
Theorem base64encode_roundtrip (buffer : list byte) :
  b64decode (_base64encode buffer) = Some buffer.
Proof. apply b64decode_b64encode. Qed.

Example base64encode_foo :
  _base64encode [x66; x6f; x6f] = "Zm9v" /\
  _base64encode [x66; x6f] = "Zm8=" /\
  _base64encode [x66] = "Zg==".
Proof. split; [|split]; reflexivity. Qed.

Section HumanStringProperties.

Variable py_str_other : value -> string.
Variable to_human_day : Z -> string.
Variable to_human_time : Z -> string.
Variable to_human_timestamp : Z -> string.
Variable to_human_timestamptz : Z -> string.

Local Abbreviation to_human_string' :=
  (to_human_string py_str_other to_human_day to_human_time
                   to_human_timestamp to_human_timestamptz).

(** X18: every class of transform prints [None] as ["null"], for every
    source type, and the void transform prints every value so. *)
Theorem to_human_string_null (self : Transform) (source : IcebergType) (v : value) :
  to_human_string' self source VNone = "null" /\
  to_human_string' VoidTransform source v = "null".
Proof. destruct self; split; reflexivity. Qed.


(** X20: the identity and truncate transforms print different binary values
    as different strings. *)
Theorem to_human_string_bytes_injective (self : Transform) (source : IcebergType)
        (b1 b2 : list byte) :
  self = IdentityTransform \/ (exists w st, self = TruncateTransform w st) ->
  to_human_string' self source (VBytes b1) = to_human_string' self source (VBytes b2) ->
  b1 = b2.
Proof.
  intros [-> | [w [st ->]]] H; simpl in H; now apply b64encode_inj.
Qed.

End HumanStringProperties.

(** ** The further properties at concrete inputs *)

Local Abbreviation transform0 :=
  (transform (fun _ => 0) (fun _ => []) (fun _ => Raise TypeError)
             (fun _ _ => Raise TypeError) (fun _ _ _ => Raise TypeError)).

Local Abbreviation to_human_string0 :=
  (to_human_string (fun _ => "") (fun _ => "") (fun _ => "") (fun _ => "") (fun _ => "")).

Lemma truncate_idempotent_witness :
  exists f, transform0 (TruncateTransform 5 None) StringType = Ok f /\
    f (VStr "abcde") = Ok (VStr "abcde").
Proof.
  eexists. split; [reflexivity|].
  apply (truncate_idempotent
           (fun _ => 0) (fun _ => []) (fun _ => Raise TypeError)
           (fun _ _ => Raise TypeError) (fun _ _ _ => Raise TypeError)
           5 None StringType _ (VStr "abcdefg") (VStr "abcde"));
    [lia | reflexivity | reflexivity | exact I | reflexivity | reflexivity].
Defined.

Lemma truncate_zero_partition_witness :
  exists f, transform0 (TruncateTransform 10 None) IntegerType = Ok f /\
    f (VInt 5) = Ok (VInt 0) /\ f (VInt 0) = Ok VNone.
Proof.
  eexists. split; [reflexivity|].
  apply (truncate_zero_partition
           (fun _ => 0) (fun _ => []) (fun _ => Raise TypeError)
           (fun _ _ => Raise TypeError) (fun _ _ _ => Raise TypeError)
           10 None IntegerType); [reflexivity | reflexivity | lia].
Defined.

Lemma truncate_monotone_witness :
  exists f, transform0 (TruncateTransform 10 None) IntegerType = Ok f /\
    forall z1 z2 r1 r2,
      f (VInt z1) = Ok (VInt r1) -> f (VInt z2) = Ok (VInt r2) -> z1 <= z2 -> r1 <= r2.
Proof.
  eexists. split; [reflexivity|].
  apply (truncate_monotone
           (fun _ => 0) (fun _ => []) (fun _ => Raise TypeError)
           (fun _ _ => Raise TypeError) (fun _ _ _ => Raise TypeError)
           10 None IntegerType); [lia | reflexivity | reflexivity].
Defined.

Lemma truncate_narrower_after_wider_witness :
  exists f', transform0 (TruncateTransform 2 None) StringType = Ok f' /\
    f' (VStr "abcde") = f' (VStr "abcdefg").
Proof.
  eexists. split; [reflexivity|].
  eapply truncate_narrower_after_wider
    with (mmh3_hash := fun _ => 0) (utf8_encode := fun _ => [])
         (decimal_to_bytes := fun _ => Raise TypeError)
         (truncate_decimal := fun _ _ => Raise TypeError)
         (decimal_sub_mod := fun _ _ _ => Raise TypeError)
         (w := 5) (w' := 2) (st := None) (st' := None) (source := StringType);
    [lia | reflexivity | reflexivity | reflexivity | reflexivity].
Defined.

Lemma bucket_value_in_range_witness :
  VInt 0 = VNone \/ exists k, VInt 0 = VInt k /\ 0 <= k < 16.
Proof.
  eapply bucket_value_in_range
    with (mmh3_hash := fun _ => 0) (utf8_encode := fun _ => [])
         (decimal_to_bytes := fun _ => Raise TypeError)
         (truncate_decimal := fun _ _ => Raise TypeError)
         (decimal_sub_mod := fun _ _ _ => Raise TypeError)
         (source := IntegerType) (v := VInt 34);
    [lia | reflexivity | reflexivity].
Defined.

Lemma bucket_integer_bounds_witness :
  exists f, transform0 (BucketTransform 16) LongType = Ok f /\
    f (VInt 34) = Ok (VInt 0) /\ f (VInt (2 ^ 63)) = Raise StructError.
Proof.
  eexists. split; [reflexivity|].
  split.
  - eapply (proj1 (bucket_integer_bounds
                     (fun _ => 0) (fun _ => []) (fun _ => Raise TypeError)
                     (fun _ _ => Raise TypeError) (fun _ _ _ => Raise TypeError)
                     16 LongType _ 34 ltac:(lia) eq_refl eq_refl)); lia.
  - eapply (proj2 (bucket_integer_bounds
                     (fun _ => 0) (fun _ => []) (fun _ => Raise TypeError)
                     (fun _ _ => Raise TypeError) (fun _ _ _ => Raise TypeError)
                     16 LongType _ (2 ^ 63) ltac:(lia) eq_refl eq_refl)); lia.
Defined.

Lemma bucket_source_class_independent_witness :
  transform0 (BucketTransform 16) IntegerType = transform0 (BucketTransform 16) DateType /\
  transform0 (BucketTransform 16) StringType = transform0 (BucketTransform 16) (FixedType 4).
Proof.
  split.
  - apply (bucket_source_class_independent
             (fun _ => 0) (fun _ => []) (fun _ => Raise TypeError)
             (fun _ _ => Raise TypeError) (fun _ _ _ => Raise TypeError)
             16 IntegerType DateType _ (or_introl eq_refl)); reflexivity.
  - apply (bucket_source_class_independent
             (fun _ => 0) (fun _ => []) (fun _ => Raise TypeError)
             (fun _ _ => Raise TypeError) (fun _ _ _ => Raise TypeError)
             16 StringType (FixedType 4) _ (or_intror eq_refl)); reflexivity.
Defined.

Lemma zero_parameter_raises_witness :
  exists f, transform0 (TruncateTransform_init 0) IntegerType = Ok f /\
    f (VInt 7) = Raise ZeroDivisionError.
Proof.
  eexists. split; [reflexivity|].
  apply (proj2 (zero_parameter_raises
                  (fun _ => 0) (fun _ => []) (fun _ => Raise TypeError)
                  (fun _ _ => Raise TypeError) (fun _ _ _ => Raise TypeError)
                  IntegerType _) 7); [reflexivity | reflexivity | lia].
Defined.

Lemma can_transform_sound_witness :
  exists f, transform0 VoidTransform (OtherType false) = Ok f.
Proof.
  apply (can_transform_sound
           (fun _ => 0) (fun _ => []) (fun _ => Raise TypeError)
           (fun _ _ => Raise TypeError) (fun _ _ _ => Raise TypeError)).
  reflexivity.
Defined.


Lemma to_human_string_bytes_injective_witness : [x66; x6f] = [x66; x6f].
Proof.
  apply (to_human_string_bytes_injective
           (fun _ => "") (fun _ => "") (fun _ => "") (fun _ => "") (fun _ => "")
           IdentityTransform BinaryType); [left; reflexivity | reflexivity].
Defined.
